(** * The WASM demo server ([wasm_demo/server.py])

    A shallow embedding of the two methods that [WASMHTTPRequestHandler]
    overrides ([guess_type] and [end_headers]) and of the start-up script
    that follows the class, together with the properties the design
    document states about them.

    Python [str] values are modelled as [string] (a sequence of one-byte
    characters); the objects the code inspects dynamically are modelled by
    [pyval] and [pyobj]; a call that may raise returns an [outcome]. *)

From Stdlib Require Import String Ascii List Bool Arith ZArith Lia.
From Stdlib Require Import Numbers.DecimalString.
Import ListNotations.
Local Open Scope string_scope.

(** ** Python values *)

(** The exceptions that occur in the model. *)
Inductive exc : Type :=
| KeyboardInterrupt
| OSError
| TypeError
| IndexError.

(** The result of a call: a value, or a raised exception. *)
Inductive outcome (A : Type) : Type :=
| Returns (a : A)
| Raises (e : exc).
Arguments Returns {A} a.
Arguments Raises {A} e.

(** A scalar: [None] or a [str]. *)
Inductive pyval : Type :=
| PyNone
| PyStr (s : string).

(** What the superclass [guess_type] may hand back: a scalar (the standard
    handler returns a [str]) or a tuple of scalars (the shape of
    [mimetypes.guess_type], which is [(type, encoding)]). *)
Inductive pyobj : Type :=
| Atom (v : pyval)
| Tuple (items : list pyval).

(** Truth value of an object, as tested by [if result]. *)
Definition truthy (o : pyobj) : bool :=
  match o with
  | Atom PyNone => false
  | Atom (PyStr s) => negb (Nat.eqb (String.length s) 0)
  | Tuple items => negb (Nat.eqb (List.length items) 0)
  end.

(** [o[i]] for a non-negative index. *)
Definition subscript (o : pyobj) (i : nat) : outcome pyval :=
  match o with
  | Atom PyNone => Raises TypeError
  | Atom (PyStr s) =>
      match String.get i s with
      | Some c => Returns (PyStr (String c EmptyString))
      | None => Raises IndexError
      end
  | Tuple items =>
      match nth_error items i with
      | Some v => Returns v
      | None => Raises IndexError
      end
  end.

(** [str(v)], the text [%s] formats a scalar to. *)
Definition py_str (v : pyval) : string :=
  match v with
  | PyNone => "None"
  | PyStr s => s
  end.

(** ** [str.endswith] and [str.lower] *)

(** [s.endswith(suffix)]: the last [len(suffix)] characters of [s] are
    compared with [suffix]. *)
Definition endswith (s suffix : string) : bool :=
  let n := String.length s in
  let m := String.length suffix in
  Nat.leb m n && String.eqb (substring (n - m) m s) suffix.

(** Lower-casing of one character and of a string (ASCII letters). *)
Definition lower_ascii (c : ascii) : ascii :=
  let n := nat_of_ascii c in
  if Nat.leb 65 n && Nat.leb n 90 then ascii_of_nat (n + 32) else c.

Fixpoint lower (s : string) : string :=
  match s with
  | EmptyString => EmptyString
  | String c s' => String (lower_ascii c) (lower s')
  end.

(** ** [WASMHTTPRequestHandler.guess_type] *)

Section GuessType.

(** [super().guess_type], the generic guesser of the base class. *)
Variable super_guess_type : string -> pyobj.

(** [result[0] if result else 'text/plain'] *)
Definition first_or_default (result : pyobj) : outcome pyval :=
  if truthy result then subscript result 0 else Returns (PyStr "text/plain").

Definition guess_type (path : string) : outcome pyval :=
  let result := super_guess_type path in
  match first_or_default result with
  | Raises e => Raises e
  | Returns mimetype =>
      if endswith path ".wasm" then Returns (PyStr "application/wasm")
      else if endswith path ".wat" then Returns (PyStr "text/plain")
      else Returns mimetype
  end.

End GuessType.

(** ** The request handler's header buffer

    The part of [http.server.BaseHTTPRequestHandler] that the override of
    [end_headers] drives.  [request_version] is the version of the request
    being answered; it is [HTTP/0.9] for a request line without a version
    and while the request line has not been parsed (a malformed line is
    answered in that state), and then the base class writes neither a
    status line nor a header.  [headers_buffer] is [_headers_buffer] (an
    absent attribute is the empty list), [wfile] is the sequence of chunks
    written to the connection. *)

Definition crlf : string := String "013" (String "010" EmptyString).

Record Handler : Type := mkHandler {
  request_version : string;
  headers_buffer : list string;
  wfile : list string;
  close_connection : bool
}.

(** [self.request_version != 'HTTP/0.9'], the guard of every header write. *)
Definition sends_headers (h : Handler) : bool :=
  negb (request_version h =? "HTTP/0.9").

(** ["%s: %s\r\n" % (keyword, value)] *)
Definition header_line (keyword value : string) : string :=
  keyword ++ ": " ++ value ++ crlf.

(** [BaseHTTPRequestHandler.send_header]: under the guard queue the line;
    in any case follow a [Connection] header. *)
Definition send_header (keyword value : string) (h : Handler) : Handler :=
  {| request_version := request_version h;
     headers_buffer :=
       if sends_headers h
       then headers_buffer h ++ [header_line keyword value]
       else headers_buffer h;
     wfile := wfile h;
     close_connection :=
       if lower keyword =? "connection" then
         if lower value =? "close" then true
         else if lower value =? "keep-alive" then false
         else close_connection h
       else close_connection h |}.

(** [BaseHTTPRequestHandler.flush_headers]: one write of the joined buffer. *)
Definition flush_headers (h : Handler) : Handler :=
  {| request_version := request_version h;
     headers_buffer := [];
     wfile := wfile h ++ [String.concat "" (headers_buffer h)];
     close_connection := close_connection h |}.

(** [BaseHTTPRequestHandler.end_headers]: under the guard, the blank line
    and then the flush; nothing otherwise. *)
Definition super_end_headers (h : Handler) : Handler :=
  if sends_headers h then
    flush_headers
      {| request_version := request_version h;
         headers_buffer := headers_buffer h ++ [crlf];
         wfile := wfile h;
         close_connection := close_connection h |}
  else h.

(** [BaseHTTPRequestHandler.send_response_only]: under the guard queue the
    status line. *)
Definition send_response_only (status_line : string) (h : Handler) : Handler :=
  if sends_headers h then
    {| request_version := request_version h;
       headers_buffer := headers_buffer h ++ [status_line ++ crlf];
       wfile := wfile h;
       close_connection := close_connection h |}
  else h.

(** [self.wfile.write(body)] *)
Definition write_body (body : string) (h : Handler) : Handler :=
  {| request_version := request_version h;
     headers_buffer := headers_buffer h;
     wfile := wfile h ++ [body];
     close_connection := close_connection h |}.

(** ** [WASMHTTPRequestHandler.end_headers] *)

Definition end_headers (h : Handler) : Handler :=
  let h := send_header "Access-Control-Allow-Origin" "*" h in
  let h := send_header "Access-Control-Allow-Methods" "GET, POST, OPTIONS" h in
  let h := send_header "Access-Control-Allow-Headers" "Content-Type" h in
  super_end_headers h.

(** The three lines the override queues, as they go on the wire. *)
Definition cors_lines : list string :=
  [ "Access-Control-Allow-Origin: *" ++ crlf;
    "Access-Control-Allow-Methods: GET, POST, OPTIONS" ++ crlf;
    "Access-Control-Allow-Headers: Content-Type" ++ crlf ].

(** ** How the base class answers a request

    Every response of the base class ([send_head], [send_error], the
    directory listing, a redirect) has one shape: the status line, headers
    through [send_header], [self.end_headers()] (which dispatches to the
    override), then the body if there is one.  For an [HTTP/0.9] request
    the first three steps write nothing and the response is the body. *)

Definition send_headers (headers : list (string * string)) (h : Handler) : Handler :=
  fold_left (fun h kv => send_header (fst kv) (snd kv) h) headers h.

Definition respond (status_line : string) (headers : list (string * string))
    (body : string) (h : Handler) : Handler :=
  let h := send_response_only status_line h in
  let h := send_headers headers h in
  let h := end_headers h in
  write_body body h.

(** [send_head] passes what [guess_type] returned to
    [send_header("Content-type", ctype)]. *)
Definition send_content_type (ctype : pyval) (h : Handler) : Handler :=
  send_header "Content-type" (py_str ctype) h.

(** A [GET] of an existing file, as [send_head] and [copyfile] do it: the
    content type is asked of [guess_type], then [200] and the headers of
    [send_response] are queued, then [Content-type], then the remaining
    headers ([Content-Length], [Last-Modified]); after [end_headers] the
    file's bytes are written. *)
Definition serve_file (super_guess_type : string -> pyobj) (path : string)
    (before after : list (string * string)) (content : string) (h : Handler)
    : outcome Handler :=
  match guess_type super_guess_type path with
  | Raises e => Raises e
  | Returns ctype =>
      let h := send_response_only "HTTP/1.0 200 OK" h in
      let h := send_headers before h in
      let h := send_content_type ctype h in
      let h := send_headers after h in
      let h := end_headers h in
      Returns (write_body content h)
  end.

(** The chunks [h'] has written beyond those of [h]. *)
Definition written_since (h h' : Handler) : list string :=
  skipn (List.length (wfile h)) (wfile h').

(** ** [posixpath.isabs] and [posixpath.dirname] *)



(** [s.rfind(c)]: the highest index of [c] in [s], or [-1]. *)
Fixpoint rfind (c : ascii) (s : string) : Z :=
  match s with
  | EmptyString => (-1)%Z
  | String a s' =>
      let r := rfind c s' in
      if (0 <=? r)%Z then (r + 1)%Z
      else if Ascii.eqb a c then 0%Z else (-1)%Z
  end.

(** [c * n] *)
Fixpoint repeat_char (c : ascii) (n : nat) : string :=
  match n with
  | O => EmptyString
  | S n' => String c (repeat_char c n')
  end.

(** [s.rstrip(c)] *)
Fixpoint rstrip (c : ascii) (s : string) : string :=
  match s with
  | EmptyString => EmptyString
  | String a s' =>
      match rstrip c s' with
      | EmptyString => if Ascii.eqb a c then EmptyString else String a EmptyString
      | String b r => String a (String b r)
      end
  end.

Definition dirname (p : string) : string :=
  let i := (rfind "/" p + 1)%Z in
  let head := substring 0 (Z.to_nat i) p in
  if negb (head =? "") && negb (head =? repeat_char "/" (String.length head))
  then rstrip "/" head
  else head.

(** ** The start-up script *)

(** What the script does to the process, in order. *)
Inductive event : Type :=
| Chdir (dir : string)
| Bind (host : string) (port : Z)
| Print (line : string)
| ServeForever
| ServerClose.

(** How a call to [serve_forever] ends: it raises, it blocks for good, or
    it returns (after a [shutdown], which this script never requests). *)
Inductive serving : Type :=
| ServeRaises (e : exc)
| ServeBlocks
| ServeReturns.

(** The process environment: where the script lives and how the calls
    into the operating system turn out. *)
Record Env : Type := mkEnv {
  script_file : string;
  abspath : string -> string;
  chdir_fails : string -> option exc;
  bind_fails : string -> Z -> option exc;
  serve_forever_ends : serving
}.

(** A statement either completes, raises, or never returns. *)
Inductive status (A : Type) : Type :=
| Done (a : A)
| Fail (e : exc)
| Hang.
Arguments Done {A} a.
Arguments Fail {A} e.
Arguments Hang {A}.

(** A command reads the environment and extends the event log. *)
Definition py (A : Type) : Type := Env -> list event -> list event * status A.

Definition ret {A : Type} (a : A) : py A := fun _ log => (log, Done a).

Definition bind {A B : Type} (m : py A) (k : A -> py B) : py B :=
  fun env log =>
    match m env log with
    | (log', Done a) => k a env log'
    | (log', Fail e) => (log', Fail e)
    | (log', Hang) => (log', Hang)
    end.

Declare Scope py_scope.
Delimit Scope py_scope with py.
Notation "x <- m ;; k" := (bind m (fun x => k))
  (at level 61, m at next level, right associativity) : py_scope.
Notation "m ;; k" := (bind m (fun _ => k))
  (at level 61, right associativity) : py_scope.

Definition emit (e : event) : py unit := fun _ log => ((log ++ [e])%list, Done tt).

Definition raise {A : Type} (e : exc) : py A := fun _ log => (log, Fail e).

(** [os.chdir(dir)] *)
Definition chdir (dir : string) : py unit :=
  fun env log =>
    match chdir_fails env dir with
    | Some e => (log, Fail e)
    | None => ((log ++ [Chdir dir])%list, Done tt)
    end.

(** [print(line)] *)
Definition print (line : string) : py unit := emit (Print line).

(** [httpd.serve_forever()] *)
Definition serve_forever : py unit :=
  fun env log =>
    match serve_forever_ends env with
    | ServeRaises e => ((log ++ [ServeForever])%list, Fail e)
    | ServeBlocks => ((log ++ [ServeForever])%list, Hang)
    | ServeReturns => ((log ++ [ServeForever])%list, Done tt)
    end.

(** [with socketserver.TCPServer((host, port), ...) as httpd: body]: the
    constructor binds and listens; leaving the block, normally or by an
    exception, closes the server. *)
Definition with_TCPServer {A : Type} (host : string) (port : Z) (body : py A) : py A :=
  fun env log =>
    match bind_fails env host port with
    | Some e => (log, Fail e)
    | None =>
        match body env ((log ++ [Bind host port])%list) with
        | (log', Done a) => ((log' ++ [ServerClose])%list, Done a)
        | (log', Fail e) => ((log' ++ [ServerClose])%list, Fail e)
        | (log', Hang) => (log', Hang)
        end
    end.

(** [try: body  except KeyboardInterrupt: handler] *)
Definition try_except_KeyboardInterrupt (body handler : py unit) : py unit :=
  fun env log =>
    match body env log with
    | (log', Fail KeyboardInterrupt) => handler env log'
    | r => r
    end.

(** [str(n)] for an integer. *)
Definition str_of_Z (n : Z) : string := NilZero.string_of_int (Z.to_int n).

Definition newline : string := String "010" EmptyString.

Definition PORT : Z := 8000.

Definition DIRECTORY (env : Env) : string :=
  dirname (abspath env (script_file env)).

Definition farewell : string := newline ++ "👋 Server stopped.".

Local Open Scope py_scope.

(** The five [print] calls at the head of the [with] block. *)
Definition print_banner : py unit :=
  fun env =>
    (print "🚀 Nyash WASM Demo Server" ;;
     print ("📦 Serving at http://localhost:" ++ str_of_Z PORT) ;;
     print ("📂 Directory: " ++ DIRECTORY env) ;;
     print (newline ++ "✨ Open http://localhost:" ++ str_of_Z PORT
              ++ "/index.html in your browser!") ;;
     print "Press Ctrl-C to stop the server...") env.

(** The module body below the class. *)
Definition main : py unit :=
  fun env =>
    (chdir (DIRECTORY env) ;;
     with_TCPServer "" PORT
       (print_banner ;;
        try_except_KeyboardInterrupt serve_forever (print farewell))) env.

Local Close Scope py_scope.

(** Running the script from an empty log. *)
Definition run (env : Env) : list event * status unit := main env [].

(** How the process ends. *)
Inductive termination : Type :=
| ExitSuccess
| ExitUncaught (e : exc)
| KeepsRunning.

Definition exit_of (s : status unit) : termination :=
  match s with
  | Done _ => ExitSuccess
  | Fail e => ExitUncaught e
  | Hang => KeepsRunning
  end.

(** The working directory after a log, from the directory [d0] the process
    started in. *)
Fixpoint cwd_after (d0 : string) (log : list event) : string :=
  match log with
  | [] => d0
  | Chdir d :: log' => cwd_after d log'
  | _ :: log' => cwd_after d0 log'
  end.

(** The lines printed to standard output by a log. *)
Fixpoint stdout_of (log : list event) : list string :=
  match log with
  | [] => []
  | Print l :: log' => l :: stdout_of log'
  | _ :: log' => stdout_of log'
  end.


(** The events of the five banner lines. *)
Definition banner_log (env : Env) : list event := fst (print_banner env []).


(** The lines a list of headers is queued as. *)
Definition header_lines (headers : list (string * string)) : list string :=
  map (fun kv => header_line (fst kv) (snd kv)) headers.

(** The header block of the response to a [GET] of an existing file whose
    content type is [ctype], behind the lines [queued] before. *)
Definition file_response_block (queued : list string)
    (before after : list (string * string)) (ctype : string) : string :=
  String.concat ""
    (queued ++ ("HTTP/1.0 200 OK" ++ crlf)%string :: header_lines before
       ++ header_line "Content-type" ctype :: header_lines after
       ++ cors_lines ++ [crlf])%list.

(** * Properties *)

(** ** Strings *)

Lemma length_append (a b : string) :
  String.length (a ++ b) = String.length a + String.length b.
Proof.
  induction a as [|c a IH]; simpl; [reflexivity | now rewrite IH].
Qed.

Lemma substring_all (s : string) : substring 0 (String.length s) s = s.
Proof.
  induction s as [|c s IH]; simpl; [reflexivity | now rewrite IH].
Qed.

Lemma substring_skip_append (p s : string) (m : nat) :
  substring (String.length p) m (p ++ s) = substring 0 m s.
Proof.
  induction p as [|c p IH]; simpl; [reflexivity | exact IH].
Qed.

(** A string is the text before position [k] followed by the rest. *)
Lemma substring_split (s : string) (k : nat) :
  k <= String.length s ->
  s = substring 0 k s ++ substring k (String.length s - k) s.
Proof.
  revert k. induction s as [|c s IH]; intros [|k] Hk; simpl in *.
  - reflexivity.
  - lia.
  - now rewrite substring_all.
  - f_equal. apply IH. lia.
Qed.

(** Two splits of one string: the shorter tail is a tail of the longer. *)
Lemma append_tails (p a q b : string) :
  p ++ a = q ++ b -> String.length a <= String.length b ->
  exists r, b = r ++ a.
Proof.
  revert q. induction p as [|c p IH]; intros q E L; simpl in E.
  - subst a. rewrite length_append in L.
    destruct q as [|d q]; simpl in L; [now exists EmptyString | lia].
  - destruct q as [|d q]; simpl in E.
    + exists (String c p). now rewrite <- E.
    + injection E as _ E. now apply (IH q).
Qed.

(** ** [endswith] is the suffix relation *)

Lemma endswith_append (p suffix : string) : endswith (p ++ suffix) suffix = true.
Proof.
  unfold endswith. rewrite length_append.
  apply andb_true_intro; split.
  - apply Nat.leb_le. lia.
  - replace (String.length p + String.length suffix - String.length suffix)
      with (String.length p) by lia.
    rewrite substring_skip_append, substring_all. apply String.eqb_refl.
Qed.

Lemma endswith_inv (s suffix : string) :
  endswith s suffix = true -> exists p, s = p ++ suffix.
Proof.
  unfold endswith. intros H. apply andb_prop in H as [L E].
  apply Nat.leb_le in L. apply String.eqb_eq in E.
  exists (substring 0 (String.length s - String.length suffix) s).
  pose proof (substring_split s (String.length s - String.length suffix)) as S.
  replace (String.length s - (String.length s - String.length suffix))
    with (String.length suffix) in S by lia.
  rewrite E in S. apply S. lia.
Qed.

Lemma endswith_spec (s suffix : string) :
  endswith s suffix = true <-> exists p, s = p ++ suffix.
Proof.
  split; [apply endswith_inv | intros [p ->]; apply endswith_append].
Qed.

(** When the suffix fits in the last component, only that component counts. *)
Lemma endswith_append_r (p ext suffix : string) :
  String.length suffix <= String.length ext ->
  endswith (p ++ ext) suffix = endswith ext suffix.
Proof.
  intros L.
  destruct (endswith ext suffix) eqn:E.
  - apply endswith_inv in E as [r ->].
    apply endswith_spec. exists (p ++ r).
    clear L. induction p as [|c p IH]; simpl; [reflexivity | now rewrite IH].
  - destruct (endswith (p ++ ext) suffix) eqn:E'; [| reflexivity].
    apply endswith_inv in E' as [q Hq].
    destruct (append_tails q suffix p ext (eq_sym Hq) L) as [r ->].
    now rewrite endswith_append in E.
Qed.

(** ** The header buffer *)

Lemma append_empty_r (s : string) : s ++ "" = s.
Proof.
  induction s as [|c s IH]; simpl; [reflexivity | now rewrite IH].
Qed.

Lemma append_assoc (a b c : string) : (a ++ b) ++ c = a ++ (b ++ c).
Proof.
  induction a as [|x a IH]; simpl; [reflexivity | now rewrite IH].
Qed.

(** Joining with the empty separator is plain concatenation. *)
Lemma concat_cons (x : string) (xs : list string) :
  String.concat "" (x :: xs) = x ++ String.concat "" xs.
Proof.
  destruct xs as [|y ys]; simpl; [now rewrite append_empty_r | reflexivity].
Qed.

Lemma concat_app (xs ys : list string) :
  String.concat "" (xs ++ ys)%list = String.concat "" xs ++ String.concat "" ys.
Proof.
  induction xs as [|x xs IH].
  - reflexivity.
  - rewrite <- app_comm_cons, !concat_cons, IH. now rewrite append_assoc.
Qed.

Lemma skipn_length_app {A : Type} (l r : list A) :
  skipn (List.length l) (l ++ r)%list = r.
Proof.
  induction l as [|x l IH]; simpl; [reflexivity | exact IH].
Qed.

Lemma skipn_length {A : Type} (l : list A) : skipn (List.length l) l = [].
Proof.
  induction l as [|x l IH]; simpl; [reflexivity | exact IH].
Qed.

(** The guard in terms of the request version. *)
Lemma sends_headers_iff (h : Handler) :
  sends_headers h = true <-> request_version h <> "HTTP/0.9".
Proof.
  unfold sends_headers. rewrite negb_true_iff. apply String.eqb_neq.
Qed.

(** No header operation changes the request version. *)
Lemma send_response_only_sends (status_line : string) (h : Handler) :
  sends_headers (send_response_only status_line h) = sends_headers h.
Proof.
  unfold send_response_only. now destruct (sends_headers h) eqn:E.
Qed.

Lemma send_headers_sends (headers : list (string * string)) (h : Handler) :
  sends_headers (send_headers headers h) = sends_headers h.
Proof.
  unfold send_headers. revert h.
  induction headers as [|kv headers IH]; intros h; simpl;
    [reflexivity | now rewrite IH].
Qed.

Lemma send_headers_buffer (headers : list (string * string)) (h : Handler) :
  headers_buffer (send_headers headers h)
  = if sends_headers h
    then (headers_buffer h ++ header_lines headers)%list
    else headers_buffer h.
Proof.
  unfold send_headers. revert h.
  induction headers as [|kv headers IH]; intros h; simpl.
  - destruct (sends_headers h); now rewrite ?app_nil_r.
  - rewrite IH.
    change (sends_headers (send_header (fst kv) (snd kv) h)) with (sends_headers h).
    cbn [headers_buffer send_header].
    destruct (sends_headers h); [now rewrite <- app_assoc | reflexivity].
Qed.

Lemma send_headers_wfile (headers : list (string * string)) (h : Handler) :
  wfile (send_headers headers h) = wfile h.
Proof.
  unfold send_headers. revert h.
  induction headers as [|kv headers IH]; intros h; simpl;
    [reflexivity | now rewrite IH].
Qed.

Lemma send_response_only_buffer (status_line : string) (h : Handler) :
  headers_buffer (send_response_only status_line h)
  = if sends_headers h
    then (headers_buffer h ++ [(status_line ++ crlf)%string])%list
    else headers_buffer h.
Proof.
  unfold send_response_only. now destruct (sends_headers h).
Qed.

Lemma send_response_only_wfile (status_line : string) (h : Handler) :
  wfile (send_response_only status_line h) = wfile h.
Proof.
  unfold send_response_only. now destruct (sends_headers h).
Qed.

(** Under the guard the override queues [cors_lines] behind what is
    already queued and leaves the rest of the handler alone. *)
Lemma end_headers_queue (h : Handler) :
  sends_headers h = true ->
  end_headers h =
  super_end_headers
    {| request_version := request_version h;
       headers_buffer := (headers_buffer h ++ cors_lines)%list;
       wfile := wfile h;
       close_connection := close_connection h |}.
Proof.
  intros G. unfold end_headers, send_header; simpl.
  change (sends_headers
            {| request_version := request_version h;
               headers_buffer := if sends_headers h
                                 then headers_buffer h ++ [header_line "Access-Control-Allow-Origin" "*"]
                                 else headers_buffer h;
               wfile := wfile h;
               close_connection := close_connection h |})
    with (sends_headers h).
  rewrite G.
  change (sends_headers
            {| request_version := request_version h;
               headers_buffer :=
                 (headers_buffer h ++ [header_line "Access-Control-Allow-Origin" "*"])
                 ++ [header_line "Access-Control-Allow-Methods" "GET, POST, OPTIONS"];
               wfile := wfile h;
               close_connection := close_connection h |})
    with (sends_headers h).
  rewrite G, <- !app_assoc. reflexivity.
Qed.

(** For an [HTTP/0.9] request the override does nothing at all. *)
Lemma end_headers_off (h : Handler) :
  sends_headers h = false -> end_headers h = h.
Proof.
  intros G. destruct h as [v b w c].
  unfold end_headers, send_header, super_end_headers, sends_headers in *.
  simpl in *. rewrite !G. reflexivity.
Qed.

Lemma end_headers_sends (h : Handler) :
  sends_headers (end_headers h) = sends_headers h.
Proof.
  destruct (sends_headers h) eqn:G.
  - rewrite (end_headers_queue h G). unfold super_end_headers.
    change (sends_headers
              {| request_version := request_version h;
                 headers_buffer := (headers_buffer h ++ cors_lines)%list;
                 wfile := wfile h;
                 close_connection := close_connection h |})
      with (sends_headers h).
    rewrite G. exact G.
  - now rewrite (end_headers_off h G).
Qed.

Lemma end_headers_wfile (h : Handler) :
  wfile (end_headers h) =
  if sends_headers h
  then (wfile h ++ [String.concat "" (headers_buffer h ++ cors_lines ++ [crlf])])%list
  else wfile h.
Proof.
  destruct (sends_headers h) eqn:G.
  - rewrite (end_headers_queue h G). unfold super_end_headers.
    change (sends_headers
              {| request_version := request_version h;
                 headers_buffer := (headers_buffer h ++ cors_lines)%list;
                 wfile := wfile h;
                 close_connection := close_connection h |})
      with (sends_headers h).
    rewrite G. unfold flush_headers; simpl. now rewrite <- app_assoc.
  - now rewrite (end_headers_off h G).
Qed.

Lemma end_headers_buffer (h : Handler) :
  headers_buffer (end_headers h) = if sends_headers h then [] else headers_buffer h.
Proof.
  destruct (sends_headers h) eqn:G.
  - rewrite (end_headers_queue h G). unfold super_end_headers.
    change (sends_headers
              {| request_version := request_version h;
                 headers_buffer := (headers_buffer h ++ cors_lines)%list;
                 wfile := wfile h;
                 close_connection := close_connection h |})
      with (sends_headers h).
    now rewrite G.
  - now rewrite (end_headers_off h G).
Qed.

Lemma end_headers_close_connection (h : Handler) :
  close_connection (end_headers h) = close_connection h.
Proof.
  destruct (sends_headers h) eqn:G.
  - rewrite (end_headers_queue h G). unfold super_end_headers.
    change (sends_headers
              {| request_version := request_version h;
                 headers_buffer := (headers_buffer h ++ cors_lines)%list;
                 wfile := wfile h;
                 close_connection := close_connection h |})
      with (sends_headers h).
    now rewrite G.
  - now rewrite (end_headers_off h G).
Qed.

(** C9: for a request whose version is not [HTTP/0.9], [end_headers]
    keeps every queued line as it is and in order, puts exactly the three
    CORS lines behind them, and runs the base class's header termination
    once: one write of the old lines, the three new ones and a single
    blank line; the buffer is then empty and the connection flag is
    untouched. *)
Theorem end_headers_appends_only (h : Handler) :
  request_version h <> "HTTP/0.9" ->
  end_headers h =
    super_end_headers
      {| request_version := request_version h;
         headers_buffer := (headers_buffer h ++ cors_lines)%list;
         wfile := wfile h;
         close_connection := close_connection h |}
  /\ List.length cors_lines = 3
  /\ wfile (end_headers h) =
       (wfile h ++
        [(String.concat "" (headers_buffer h) ++ String.concat "" cors_lines
            ++ crlf)%string])%list
  /\ headers_buffer (end_headers h) = []
  /\ close_connection (end_headers h) = close_connection h.
Proof.
  intros V. apply sends_headers_iff in V.
  split; [now apply end_headers_queue |].
  split; [reflexivity |].
  split; [| split].
  - rewrite end_headers_wfile, V, !concat_app. reflexivity.
  - now rewrite end_headers_buffer, V.
  - apply end_headers_close_connection.
Qed.

Lemma end_headers_appends_only_witness :
  wfile (end_headers (mkHandler "HTTP/1.1" ["HTTP/1.0 200 OK" ++ crlf] [] false))
  = [ "HTTP/1.0 200 OK" ++ crlf
      ++ "Access-Control-Allow-Origin: *" ++ crlf
      ++ "Access-Control-Allow-Methods: GET, POST, OPTIONS" ++ crlf
      ++ "Access-Control-Allow-Headers: Content-Type" ++ crlf
      ++ crlf ].
Proof.
  pose proof (end_headers_appends_only
                (mkHandler "HTTP/1.1" ["HTTP/1.0 200 OK" ++ crlf] [] false))
    as H.
  destruct H as (_ & _ & W & _); [intros E; discriminate E |].
  rewrite W. reflexivity.
Defined.

(** C9, the case the statement without the version does not survive: for
    an [HTTP/0.9] request [end_headers] queues nothing and writes nothing. *)
Lemma end_headers_http09_appends_nothing :
  end_headers (mkHandler "HTTP/0.9" [] [] true) = mkHandler "HTTP/0.9" [] [] true
  /\ wfile (end_headers (mkHandler "HTTP/0.9" [] [] true))
     <> (wfile (mkHandler "HTTP/0.9" [] [] true) ++
         [(String.concat "" (headers_buffer (mkHandler "HTTP/0.9" [] [] true))
             ++ String.concat "" cors_lines ++ crlf)%string])%list.
Proof.
  split; [reflexivity | intros E; discriminate E].
Qed.





(** ** [guess_type] *)

(** The conditional expression never raises: a truthy [str] or tuple has
    an element at index 0. *)
Lemma first_or_default_returns (result : pyobj) :
  exists v, first_or_default result = Returns v.
Proof.
  unfold first_or_default.
  destruct result as [[|[|c s]]|[|v items]]; simpl; eauto.
Qed.

(** Read the generic result in a goal about [guess_type sup path]. *)
Ltac read_generic sup path :=
  let v := fresh "v" in
  unfold guess_type; destruct (first_or_default_returns (sup path)) as [v ->].

Lemma guess_type_returns (sup : string -> pyobj) (path : string) :
  exists v, guess_type sup path = Returns v.
Proof.
  read_generic sup path.
  destruct (endswith path ".wasm"), (endswith path ".wat"); eauto.
Qed.

Lemma guess_type_wasm_branch (sup : string -> pyobj) (path : string) :
  endswith path ".wasm" = true ->
  guess_type sup path = Returns (PyStr "application/wasm").
Proof.
  intros H. read_generic sup path. now rewrite H.
Qed.

(** No path ends in both suffixes. *)
Lemma wat_not_wasm (path : string) :
  endswith path ".wat" = true -> endswith path ".wasm" = false.
Proof.
  intros H. destruct (endswith path ".wasm") eqn:E; [| reflexivity].
  apply endswith_inv in H as [p Hp]. apply endswith_inv in E as [q Hq].
  rewrite Hp in Hq.
  destruct (append_tails p ".wat" q ".wasm" Hq) as [r Hr]; [simpl; lia |].
  pose proof (f_equal String.length Hr) as L.
  rewrite length_append in L. simpl in L.
  destruct r as [|x [|y r]]; simpl in L; try lia; discriminate.
Qed.

Lemma guess_type_wat_branch (sup : string -> pyobj) (path : string) :
  endswith path ".wat" = true ->
  guess_type sup path = Returns (PyStr "text/plain").
Proof.
  intros H. read_generic sup path. now rewrite (wat_not_wasm path H), H.
Qed.

Lemma guess_type_other_branch (sup : string -> pyobj) (path : string) :
  endswith path ".wasm" = false -> endswith path ".wat" = false ->
  guess_type sup path = first_or_default (sup path).
Proof.
  intros H1 H2. read_generic sup path. now rewrite H1, H2.
Qed.

(** What a [GET] of an existing file writes, given the content type: the
    header block under the guard, then the content. *)
Lemma serve_file_written (sup : string -> pyobj) (path : string)
    (before after : list (string * string)) (content : string) (h : Handler)
    (ctype : pyval) :
  guess_type sup path = Returns ctype ->
  exists h1,
    serve_file sup path before after content h = Returns h1
    /\ written_since h h1 =
         ((if sends_headers h
           then [file_response_block (headers_buffer h) before after (py_str ctype)]
           else []) ++ [content])%list
    /\ headers_buffer h1 = (if sends_headers h then [] else headers_buffer h)
    /\ sends_headers h1 = sends_headers h.
Proof.
  intros G. unfold serve_file. rewrite G. eexists. split; [reflexivity |].
  unfold written_since, write_body, send_content_type.
  cbn [wfile headers_buffer].
  change (sends_headers
            {| request_version := request_version ?x;
               headers_buffer := _; wfile := _; close_connection := _ |})
    with (sends_headers x).
  rewrite end_headers_wfile, end_headers_buffer, end_headers_sends.
  rewrite !send_headers_sends, !send_headers_wfile, !send_headers_buffer.
  change (sends_headers (send_header "Content-type" (py_str ctype) ?x))
    with (sends_headers x).
  cbn [wfile headers_buffer send_header].
  rewrite !send_headers_sends, !send_headers_wfile, !send_headers_buffer.
  rewrite !send_response_only_sends, send_response_only_wfile,
    send_response_only_buffer.
  destruct (sends_headers h).
  - split; [| split; reflexivity].
    rewrite <- (app_assoc (wfile h)), skipn_length_app. cbn [app].
    unfold file_response_block. do 2 f_equal.
    rewrite <- !app_assoc. reflexivity.
  - split; [| split; reflexivity].
    now rewrite skipn_length_app.
Qed.

(** C1: a path that ends in [.wasm] gets the content type
    [application/wasm] whatever the generic guesser answers, and the
    response to a [GET] of such a file carries the header
    [Content-type: application/wasm] in its header block (an [HTTP/0.9]
    request is answered by the content alone). *)
Theorem guess_type_wasm (sup : string -> pyobj) (path : string) :
  endswith path ".wasm" = true ->
  guess_type sup path = Returns (PyStr "application/wasm")
  /\ forall before after content h,
       exists h1,
         serve_file sup path before after content h = Returns h1
         /\ written_since h h1 =
              ((if sends_headers h
                then [file_response_block (headers_buffer h) before after
                        "application/wasm"]
                else []) ++ [content])%list.
Proof.
  intros H. pose proof (guess_type_wasm_branch sup path H) as G.
  split; [exact G |]. intros before after content h.
  destruct (serve_file_written sup path before after content h _ G)
    as (h1 & E & W & _).
  exists h1. split; assumption.
Qed.

Lemma guess_type_wasm_witness :
  guess_type (fun _ => Atom (PyStr "application/octet-stream")) "/pkg/module.wasm"
  = Returns (PyStr "application/wasm").
Proof.
  apply (guess_type_wasm (fun _ => Atom (PyStr "application/octet-stream"))
           "/pkg/module.wasm").
  reflexivity.
Defined.

(** C4: a path that ends in [.wat] gets the content type [text/plain]
    (such a path does not end in [.wasm]). *)
Theorem guess_type_wat (sup : string -> pyobj) (path : string) :
  endswith path ".wat" = true ->
  endswith path ".wasm" = false
  /\ guess_type sup path = Returns (PyStr "text/plain").
Proof.
  intros H. split; [now apply wat_not_wasm | now apply guess_type_wat_branch].
Qed.

Lemma guess_type_wat_witness :
  guess_type (fun _ => Atom (PyStr "application/octet-stream")) "/demo/add.wat"
  = Returns (PyStr "text/plain").
Proof.
  apply (guess_type_wat (fun _ => Atom (PyStr "application/octet-stream"))
           "/demo/add.wat").
  reflexivity.
Defined.

(** C10: for a path that ends in [.wasm] or [.wat], two generic guessers
    that disagree (one may even answer nothing) lead to the same content
    type. *)
Theorem guess_type_override_independent (sup1 sup2 : string -> pyobj) (path : string) :
  endswith path ".wasm" = true \/ endswith path ".wat" = true ->
  guess_type sup1 path = guess_type sup2 path.
Proof.
  intros [H | H].
  - now rewrite !(guess_type_wasm_branch _ path H).
  - now rewrite !(guess_type_wat_branch _ path H).
Qed.

Lemma guess_type_override_independent_witness :
  guess_type (fun _ => Atom (PyStr "application/octet-stream")) "/demo/add.wat"
  = guess_type (fun _ => Atom PyNone) "/demo/add.wat".
Proof.
  apply guess_type_override_independent. right. reflexivity.
Defined.

Lemma endswith_same_length (s suffix : string) :
  String.length s = String.length suffix ->
  endswith s suffix = String.eqb s suffix.
Proof.
  intros L. unfold endswith. rewrite L, Nat.leb_refl, Nat.sub_diag.
  rewrite <- L, substring_all. reflexivity.
Qed.

Lemma lower_length (s : string) : String.length (lower s) = String.length s.
Proof.
  induction s as [|c s IH]; simpl; [reflexivity | now rewrite IH].
Qed.

(** If [s] ends in [suffix], no string of the length of [suffix] other
    than [suffix] itself closes [s]. *)
Lemma endswith_unique (stem ext suffix : string) :
  String.length ext = String.length suffix ->
  ext <> suffix -> endswith (stem ++ ext) suffix = false.
Proof.
  intros L N. rewrite endswith_append_r by lia.
  rewrite endswith_same_length by exact L.
  now apply String.eqb_neq.
Qed.

Lemma case_variant_wasm_not_wat (stem ext : string) :
  lower ext = ".wasm" -> endswith (stem ++ ext) ".wat" = false.
Proof.
  intros H. pose proof (lower_length ext) as L. rewrite H in L. simpl in L.
  rewrite endswith_append_r by (simpl; lia).
  destruct ext as [|c1 [|c2 [|c3 [|c4 [|c5 [|c6 ext]]]]]]; try discriminate.
  simpl in H. injection H as _ H2 _ _ _.
  unfold endswith. simpl.
  destruct (Ascii.eqb_spec c2 "."%char) as [-> | N].
  - discriminate H2.
  - reflexivity.
Qed.

Lemma case_variant_wat_not_wasm (stem ext : string) :
  lower ext = ".wat" -> endswith (stem ++ ext) ".wasm" = false.
Proof.
  intros H. destruct (endswith (stem ++ ext) ".wasm") eqn:E; [| reflexivity].
  apply endswith_inv in E as [q Hq].
  pose proof (lower_length ext) as L. rewrite H in L. simpl in L.
  destruct (append_tails stem ext q ".wasm" Hq) as [r Hr]; [simpl; lia |].
  pose proof (f_equal String.length Hr) as Lr.
  rewrite length_append in Lr. simpl in Lr.
  destruct r as [|x [|y r]]; simpl in Lr; try lia.
  simpl in Hr. injection Hr as _ Hr. subst ext. discriminate H.
Qed.

(** C5: the two overrides match the suffix exactly; an extension that
    differs from [.wasm] or [.wat] only in the case of its letters
    triggers neither, and the answer is the one of the generic branch. *)
Theorem guess_type_case_sensitive (sup : string -> pyobj) (stem ext : string) :
  (lower ext = ".wasm" /\ ext <> ".wasm") \/ (lower ext = ".wat" /\ ext <> ".wat") ->
  endswith (stem ++ ext) ".wasm" = false
  /\ endswith (stem ++ ext) ".wat" = false
  /\ guess_type sup (stem ++ ext) = first_or_default (sup (stem ++ ext)).
Proof.
  intros H.
  assert (endswith (stem ++ ext) ".wasm" = false
          /\ endswith (stem ++ ext) ".wat" = false) as [H1 H2].
  { destruct H as [[L N] | [L N]].
    - split; [| now apply case_variant_wasm_not_wat].
      apply endswith_unique; [| exact N].
      rewrite <- (lower_length ext), L. reflexivity.
    - split; [now apply case_variant_wat_not_wasm |].
      apply endswith_unique; [| exact N].
      rewrite <- (lower_length ext), L. reflexivity. }
  repeat split; try assumption.
  now apply guess_type_other_branch.
Qed.

Lemma guess_type_case_sensitive_witness :
  guess_type (fun _ => Tuple [PyNone; PyNone]) ("/pkg/module" ++ ".WASM")
  = first_or_default (Tuple [PyNone; PyNone]).
Proof.
  apply (guess_type_case_sensitive (fun _ => Tuple [PyNone; PyNone])
           "/pkg/module" ".WASM").
  left. split; [reflexivity | discriminate].
Defined.

(** The generic branch, by the shape of what the base class returned:
    nothing gives the default, a tuple gives its first element, and a
    non-empty [str] gives its first character. *)
Lemma first_or_default_falsy (result : pyobj) :
  truthy result = false -> first_or_default result = Returns (PyStr "text/plain").
Proof.
  unfold first_or_default. now intros ->.
Qed.

Lemma first_or_default_tuple (v : pyval) (items : list pyval) :
  first_or_default (Tuple (v :: items)) = Returns v.
Proof. reflexivity. Qed.

Lemma first_or_default_str (c : ascii) (s : string) :
  first_or_default (Atom (PyStr (String c s))) = Returns (PyStr (String c "")).
Proof. reflexivity. Qed.

Lemma guess_type_str_first_character (sup : string -> pyobj) (path : string)
    (c : ascii) (s : string) :
  endswith path ".wasm" = false -> endswith path ".wat" = false ->
  sup path = Atom (PyStr (String c s)) ->
  guess_type sup path = Returns (PyStr (String c "")).
Proof.
  intros H1 H2 E.
  now rewrite (guess_type_other_branch sup path H1 H2), E.
Qed.

(** C3: [/index.html] ends in neither suffix and the base class answers
    the [str] [text/html] for it; [guess_type] then returns [t], the first
    character of that answer, and not the answer. *)
Theorem guess_type_html_first_character :
  endswith "/index.html" ".wasm" = false
  /\ endswith "/index.html" ".wat" = false
  /\ guess_type (fun _ => Atom (PyStr "text/html")) "/index.html"
     = Returns (PyStr "t")
  /\ guess_type (fun _ => Atom (PyStr "text/html")) "/index.html"
     <> Returns (PyStr "text/html").
Proof.
  repeat split; try reflexivity. intros E. discriminate E.
Qed.



(** ** [dirname] of an absolute path *)






(** ** The start-up script *)

Lemma print_banner_log (env : Env) (log : list event) :
  print_banner env log = ((log ++ banner_log env)%list, Done tt).
Proof.
  unfold banner_log, print_banner, bind, print, emit. simpl.
  now rewrite <- !app_assoc.
Qed.

(** The log up to the moment [serve_forever] is entered. *)
Lemma run_chdir_fails (env : Env) (e : exc) :
  chdir_fails env (DIRECTORY env) = Some e -> run env = ([], Fail e).
Proof.
  intros C. unfold run, main, bind, chdir. now rewrite C.
Qed.

Lemma run_bind_fails (env : Env) (e : exc) :
  chdir_fails env (DIRECTORY env) = None ->
  bind_fails env "" PORT = Some e ->
  run env = ([Chdir (DIRECTORY env)], Fail e).
Proof.
  intros C B. unfold run, main, bind, chdir, with_TCPServer. now rewrite C, B.
Qed.

Lemma run_serving (env : Env) :
  chdir_fails env (DIRECTORY env) = None ->
  bind_fails env "" PORT = None ->
  run env =
  match serve_forever_ends env with
  | ServeRaises KeyboardInterrupt =>
      ((Chdir (DIRECTORY env) :: Bind "" PORT :: banner_log env
          ++ [ServeForever; Print farewell; ServerClose])%list, Done tt)
  | ServeRaises e =>
      ((Chdir (DIRECTORY env) :: Bind "" PORT :: banner_log env
          ++ [ServeForever; ServerClose])%list, Fail e)
  | ServeBlocks =>
      ((Chdir (DIRECTORY env) :: Bind "" PORT :: banner_log env
          ++ [ServeForever])%list, Hang)
  | ServeReturns =>
      ((Chdir (DIRECTORY env) :: Bind "" PORT :: banner_log env
          ++ [ServeForever; ServerClose])%list, Done tt)
  end.
Proof.
  intros C B.
  unfold run, main, bind at 1, chdir, with_TCPServer. rewrite C, B.
  unfold bind. rewrite print_banner_log.
  unfold try_except_KeyboardInterrupt, serve_forever, print, emit.
  destruct (serve_forever_ends env) as [[| | |]| |]; cbn [app];
    rewrite <- ?app_assoc; reflexivity.
Qed.

Lemma stdout_of_app (a b : list event) :
  stdout_of (a ++ b) = (stdout_of a ++ stdout_of b)%list.
Proof.
  induction a as [|[] a IH]; simpl; try exact IH; [reflexivity | now rewrite IH].
Qed.

Lemma farewell_not_in_banner (env : Env) : ~ In (Print farewell) (banner_log env).
Proof.
  unfold banner_log, farewell. simpl.
  intros [E | [E | [E | [E | [E | []]]]]]; discriminate E.
Qed.

Lemma not_in_serving (env : Env) (tail : list event) :
  ~ In (Print farewell) tail ->
  ~ In (Print farewell)
      (Chdir (DIRECTORY env) :: Bind "" PORT :: banner_log env ++ tail)%list.
Proof.
  intros T [E | [E | I]]; try discriminate E.
  apply in_app_or in I as [I | I]; [now apply (farewell_not_in_banner env) | auto].
Qed.

(** C7: when the directory change and the bind succeed and
    [serve_forever] is ended by [KeyboardInterrupt], the script prints the
    farewell as its last line, closes the server and ends normally
    (success status).  No other exception is caught: one raised by
    [os.chdir], by the [TCPServer] constructor, or by [serve_forever]
    other than [KeyboardInterrupt], ends the script uncaught and the
    farewell is not printed. *)
Theorem keyboard_interrupt_is_caught (env : Env) :
  (chdir_fails env (DIRECTORY env) = None ->
   bind_fails env "" PORT = None ->
   serve_forever_ends env = ServeRaises KeyboardInterrupt ->
     exit_of (snd (run env)) = ExitSuccess
     /\ (exists log,
           fst (run env) = (log ++ [ServeForever; Print farewell; ServerClose])%list)
     /\ last (stdout_of (fst (run env))) "" = farewell)
  /\ (forall e,
        chdir_fails env (DIRECTORY env) = Some e
        \/ (chdir_fails env (DIRECTORY env) = None
            /\ bind_fails env "" PORT = Some e)
        \/ (chdir_fails env (DIRECTORY env) = None
            /\ bind_fails env "" PORT = None
            /\ serve_forever_ends env = ServeRaises e
            /\ e <> KeyboardInterrupt) ->
        exit_of (snd (run env)) = ExitUncaught e
        /\ ~ In (Print farewell) (fst (run env))).
Proof.
  split.
  - intros C B S. rewrite (run_serving env C B), S. cbn [fst snd exit_of].
    split; [reflexivity |]. split.
    + exists (Chdir (DIRECTORY env) :: Bind "" PORT :: banner_log env)%list.
      reflexivity.
    + cbn [stdout_of]. rewrite stdout_of_app. cbn [stdout_of].
      now rewrite last_last.
  - intros e [C | [[C B] | (C & B & S & N)]].
    + rewrite (run_chdir_fails env e C). split; [reflexivity | intros []].
    + rewrite (run_bind_fails env e C B). split; [reflexivity |].
      intros [E | []]. discriminate E.
    + rewrite (run_serving env C B), S.
      destruct e; try contradiction; cbn [fst snd exit_of];
        (split; [reflexivity |]); apply not_in_serving;
        intros [E | [E | []]]; discriminate E.
Qed.

Lemma keyboard_interrupt_is_caught_witness :
  exit_of (snd (run (mkEnv "server.py" (fun p => "/srv/demo/" ++ p)
                       (fun _ => None) (fun _ _ => None)
                       (ServeRaises KeyboardInterrupt)))) = ExitSuccess.
Proof.
  apply (proj1 (keyboard_interrupt_is_caught
                  (mkEnv "server.py" (fun p => "/srv/demo/" ++ p)
                     (fun _ => None) (fun _ _ => None)
                     (ServeRaises KeyboardInterrupt))));
    reflexivity.
Defined.







(** ** The scenarios of the design document *)

(** Scenario 1: [GET /module.wasm] of an existing file. *)
Example scenario_module_wasm :
  serve_file (fun _ => Atom (PyStr "application/octet-stream")) "/module.wasm"
    [("Server", "SimpleHTTP/0.6")] [("Content-Length", "8")] "wasmbody"
    (mkHandler "HTTP/1.1" [] [] false)
  = Returns
      (mkHandler "HTTP/1.1" []
         [ "HTTP/1.0 200 OK" ++ crlf
           ++ "Server: SimpleHTTP/0.6" ++ crlf
           ++ "Content-type: application/wasm" ++ crlf
           ++ "Content-Length: 8" ++ crlf
           ++ "Access-Control-Allow-Origin: *" ++ crlf
           ++ "Access-Control-Allow-Methods: GET, POST, OPTIONS" ++ crlf
           ++ "Access-Control-Allow-Headers: Content-Type" ++ crlf
           ++ crlf;
           "wasmbody" ]
         false).
Proof. reflexivity. Qed.

(** Scenario 2: [GET /missing.html]; [send_error] closes the connection. *)
Example scenario_missing_html :
  respond "HTTP/1.0 404 File not found" [("Connection", "close")] "Not found"
    (mkHandler "HTTP/1.1" [] [] false)
  = mkHandler "HTTP/1.1" []
      [ "HTTP/1.0 404 File not found" ++ crlf
        ++ "Connection: close" ++ crlf
        ++ "Access-Control-Allow-Origin: *" ++ crlf
        ++ "Access-Control-Allow-Methods: GET, POST, OPTIONS" ++ crlf
        ++ "Access-Control-Allow-Headers: Content-Type" ++ crlf
        ++ crlf;
        "Not found" ]
      true.
Proof. reflexivity. Qed.

(** Scenario 4: an interrupt while the server waits for connections. *)
Example scenario_interrupt :
  run (mkEnv "server.py" (fun p => "/srv/demo/" ++ p)
         (fun _ => None) (fun _ _ => None) (ServeRaises KeyboardInterrupt))
  = ([ Chdir "/srv/demo"; Bind "" 8000;
       Print "🚀 Nyash WASM Demo Server";
       Print "📦 Serving at http://localhost:8000";
       Print "📂 Directory: /srv/demo";
       Print (newline ++ "✨ Open http://localhost:8000/index.html in your browser!");
       Print "Press Ctrl-C to stop the server...";
       ServeForever;
       Print (newline ++ "👋 Server stopped.");
       ServerClose ],
     Done tt).
Proof. reflexivity. Qed.

(** The port is taken: the constructor raises, nothing is printed. *)
Example scenario_port_in_use :
  run (mkEnv "server.py" (fun p => "/srv/demo/" ++ p)
         (fun _ => None) (fun _ _ => Some OSError) ServeBlocks)
  = ([Chdir "/srv/demo"], Fail OSError).
Proof. reflexivity. Qed.

(** * Further properties of the handler and of the script *)

(** ** [guess_type]: errors, edges and what the result depends on *)

(** X1: the [if result] guard is what makes [result[0]] safe.  Indexing
    any falsy answer ([None], the empty [str], the empty tuple) raises,
    and [guess_type] raises for no answer of the base class and no path. *)
Theorem guess_type_never_raises :
  (forall o, truthy o = false -> exists e, subscript o 0 = Raises e)
  /\ (forall (sup : string -> pyobj) (path : string) (e : exc),
        guess_type sup path <> Raises e).
Proof.
  split.
  - intros [[|[|c s]]|[|v items]] T; simpl in *; try discriminate T; eauto.
  - intros sup path e H.
    destruct (guess_type_returns sup path) as [v G].
    rewrite G in H. discriminate H.
Qed.

(** A base class that answers the [str] [x] tells the branches apart. *)
Lemma guess_type_probe (path : string) :
  guess_type (fun _ => Atom (PyStr "x")) path =
  if endswith path ".wasm" then Returns (PyStr "application/wasm")
  else if endswith path ".wat" then Returns (PyStr "text/plain")
  else Returns (PyStr "x").
Proof. reflexivity. Qed.

(** X2: [application/wasm] is forced (returned for every base class)
    exactly on the paths of the form [stem ++ ".wasm"]. *)
Theorem wasm_forced_exactly_on_suffix (path : string) :
  (forall sup, guess_type sup path = Returns (PyStr "application/wasm"))
  <-> exists stem, path = stem ++ ".wasm".
Proof.
  split.
  - intros H. specialize (H (fun _ => Atom (PyStr "x"))).
    rewrite guess_type_probe in H.
    destruct (endswith path ".wasm") eqn:E; [now apply endswith_inv |].
    destruct (endswith path ".wat"); discriminate H.
  - intros [stem ->] sup. apply guess_type_wasm_branch, endswith_append.
Qed.

(** X3: [text/plain] is forced exactly on the paths of the form
    [stem ++ ".wat"]. *)
Theorem plain_forced_exactly_on_suffix (path : string) :
  (forall sup, guess_type sup path = Returns (PyStr "text/plain"))
  <-> exists stem, path = stem ++ ".wat".
Proof.
  split.
  - intros H. specialize (H (fun _ => Atom (PyStr "x"))).
    rewrite guess_type_probe in H.
    destruct (endswith path ".wasm"); [discriminate H |].
    destruct (endswith path ".wat") eqn:E; [now apply endswith_inv | discriminate H].
  - intros [stem ->] sup. apply guess_type_wat_branch, endswith_append.
Qed.

(** X4: on a path with neither suffix the answer of the base class decides
    by its shape: a falsy answer gives [text/plain], a non-empty [str]
    gives its first character, a non-empty tuple gives its first element
    (which may be [None]). *)
Theorem guess_type_generic_by_shape (sup : string -> pyobj) (path : string) :
  endswith path ".wasm" = false -> endswith path ".wat" = false ->
  (truthy (sup path) = false -> guess_type sup path = Returns (PyStr "text/plain"))
  /\ (forall c s, sup path = Atom (PyStr (String c s)) ->
        guess_type sup path = Returns (PyStr (String c "")))
  /\ (forall v items, sup path = Tuple (v :: items) ->
        guess_type sup path = Returns v).
Proof.
  intros H1 H2. rewrite (guess_type_other_branch sup path H1 H2).
  split; [apply first_or_default_falsy |].
  split; [intros c s -> | intros v items ->]; reflexivity.
Qed.

Lemma guess_type_generic_by_shape_witness :
  guess_type (fun _ => Tuple [PyNone; PyNone]) "/data.bin" = Returns PyNone.
Proof.
  apply (guess_type_generic_by_shape (fun _ => Tuple [PyNone; PyNone]) "/data.bin"
           eq_refl eq_refl) with (items := [PyNone]).
  reflexivity.
Defined.

(** X5: when the base class answers a scalar (a [str], as the standard
    handler does, or [None]), the content type is a [str] and one of
    [application/wasm], [text/plain] and a single character. *)
Theorem guess_type_of_scalar (sup : string -> pyobj) (path : string) (v : pyval) :
  sup path = Atom v ->
  exists s,
    guess_type sup path = Returns (PyStr s)
    /\ (s = "application/wasm" \/ s = "text/plain" \/ String.length s = 1).
Proof.
  intros E. unfold guess_type, first_or_default. rewrite E.
  destruct v as [|[|c s]]; simpl;
    destruct (endswith path ".wasm"), (endswith path ".wat"); eauto.
Qed.

Lemma guess_type_of_scalar_witness :
  exists s,
    guess_type (fun _ => Atom (PyStr "image/png")) "/logo.png" = Returns (PyStr s)
    /\ (s = "application/wasm" \/ s = "text/plain" \/ String.length s = 1).
Proof.
  apply (guess_type_of_scalar (fun _ => Atom (PyStr "image/png")) "/logo.png"
           (PyStr "image/png")).
  reflexivity.
Defined.

Lemma endswith_too_short (s suffix : string) :
  String.length s < String.length suffix -> endswith s suffix = false.
Proof.
  intros L. unfold endswith.
  destruct (Nat.leb_spec (String.length suffix) (String.length s)); [lia | reflexivity].
Qed.

(** X6: a path of fewer than four characters (the empty path included)
    matches neither suffix, and the generic branch answers. *)
Theorem guess_type_short_path (sup : string -> pyobj) (path : string) :
  String.length path < 4 ->
  endswith path ".wasm" = false
  /\ endswith path ".wat" = false
  /\ guess_type sup path = first_or_default (sup path).
Proof.
  intros L.
  assert (endswith path ".wasm" = false) as H1
    by (apply endswith_too_short; simpl; lia).
  assert (endswith path ".wat" = false) as H2
    by (apply endswith_too_short; simpl; lia).
  repeat split; try assumption. now apply guess_type_other_branch.
Qed.

Lemma guess_type_short_path_witness :
  guess_type (fun _ => Atom PyNone) "" = first_or_default (Atom PyNone).
Proof.
  apply (guess_type_short_path (fun _ => Atom PyNone) ""). simpl. lia.
Defined.

(** X7: the result depends on the path only through its last five
    characters and the answer of the base class: two paths with a common
    tail of five characters or more, for which the base classes answer
    the same, get the same content type. *)
Theorem guess_type_depends_on_tail (sup1 sup2 : string -> pyobj)
    (stem1 stem2 tail : string) :
  5 <= String.length tail ->
  sup1 (stem1 ++ tail) = sup2 (stem2 ++ tail) ->
  guess_type sup1 (stem1 ++ tail) = guess_type sup2 (stem2 ++ tail).
Proof.
  intros L E. unfold guess_type. rewrite E.
  rewrite !(endswith_append_r stem1), !(endswith_append_r stem2)
    by (simpl; lia).
  reflexivity.
Qed.

Lemma guess_type_depends_on_tail_witness :
  guess_type (fun _ => Atom (PyStr "text/html")) ("/a/" ++ "x.wasm")
  = guess_type (fun _ => Atom (PyStr "text/html")) ("/b/c/" ++ "x.wasm").
Proof.
  apply guess_type_depends_on_tail; [simpl; lia | reflexivity].
Defined.

(** ** [end_headers]: repeated calls and framing *)

(** X8: for a request whose version is not [HTTP/0.9], a second call of
    [end_headers] with nothing queued in between writes a second block
    that holds only the three CORS lines and the blank line, and the first
    block is not written again; for an [HTTP/0.9] request neither call
    writes anything and the buffer stays as it was. *)
Theorem end_headers_twice (h : Handler) :
  written_since h (end_headers (end_headers h)) =
    (if sends_headers h
     then [ String.concat "" (headers_buffer h) ++ String.concat "" cors_lines ++ crlf;
            String.concat "" cors_lines ++ crlf ]
     else [])
  /\ headers_buffer (end_headers (end_headers h))
     = if sends_headers h then [] else headers_buffer h.
Proof.
  unfold written_since.
  rewrite (end_headers_wfile (end_headers h)), (end_headers_buffer (end_headers h)).
  rewrite end_headers_sends, end_headers_buffer, end_headers_wfile.
  destruct (sends_headers h); split; try reflexivity.
  - rewrite <- (app_assoc (wfile h)), skipn_length_app. cbn [app].
    rewrite !concat_app. reflexivity.
  - apply skipn_length.
Qed.

(** X9: for a request whose version is not [HTTP/0.9], whatever is
    queued, [end_headers] writes exactly one more chunk, and that chunk
    ends in CRLF CRLF: the last CORS line is followed by the blank line
    that closes the header block.  For an [HTTP/0.9] request it leaves the
    handler as it is. *)
Theorem end_headers_block_terminated (h : Handler) :
  (request_version h <> "HTTP/0.9" ->
   exists block,
     wfile (end_headers h) = (wfile h ++ [block])%list
     /\ endswith block (crlf ++ crlf) = true
     /\ endswith block
          ("Access-Control-Allow-Headers: Content-Type" ++ crlf ++ crlf) = true)
  /\ (request_version h = "HTTP/0.9" -> end_headers h = h).
Proof.
  split.
  - intros V. apply sends_headers_iff in V.
    eexists. split; [rewrite end_headers_wfile, V; reflexivity |].
    rewrite !concat_app. cbn [cors_lines String.concat].
    split; apply endswith_spec.
    + exists (String.concat "" (headers_buffer h)
              ++ ("Access-Control-Allow-Origin: *" ++ crlf)
              ++ ("Access-Control-Allow-Methods: GET, POST, OPTIONS" ++ crlf)
              ++ "Access-Control-Allow-Headers: Content-Type").
      rewrite !append_assoc. reflexivity.
    + exists (String.concat "" (headers_buffer h)
              ++ ("Access-Control-Allow-Origin: *" ++ crlf)
              ++ ("Access-Control-Allow-Methods: GET, POST, OPTIONS" ++ crlf)).
      rewrite !append_assoc. reflexivity.
  - intros V. apply end_headers_off. unfold sends_headers.
    rewrite V. reflexivity.
Qed.

Lemma end_headers_block_terminated_witness :
  (exists block,
     wfile (end_headers (mkHandler "HTTP/1.1" ["HTTP/1.0 200 OK" ++ crlf] [] false))
     = ([] ++ [block])%list
     /\ endswith block (crlf ++ crlf) = true
     /\ endswith block
          ("Access-Control-Allow-Headers: Content-Type" ++ crlf ++ crlf) = true)
  /\ end_headers (mkHandler "HTTP/0.9" [] [] true) = mkHandler "HTTP/0.9" [] [] true.
Proof.
  split.
  - apply (proj1 (end_headers_block_terminated
                    (mkHandler "HTTP/1.1" ["HTTP/1.0 200 OK" ++ crlf] [] false))).
    intros E. discriminate E.
  - apply (proj2 (end_headers_block_terminated (mkHandler "HTTP/0.9" [] [] true))).
    reflexivity.
Defined.

(** ** The script: when it prints, closes and ends *)

Lemma banner_log_prints (env : Env) :
  exists l1 l2 l3 l4 l5,
    banner_log env = [Print l1; Print l2; Print l3; Print l4; Print l5]
    /\ l1 <> farewell /\ l2 <> farewell /\ l3 <> farewell
    /\ l4 <> farewell /\ l5 <> farewell.
Proof.
  do 5 eexists. split; [reflexivity |].
  unfold farewell. repeat split; intros E; discriminate E.
Qed.

(** Every run has one of the shapes of [run_chdir_fails], [run_bind_fails]
    and [run_serving]; the tactic splits a goal about [run env] into them,
    with the banner as five explicit [Print] events. *)
Ltac script_cases env :=
  let C := fresh "C" in
  let B := fresh "B" in
  let e := fresh "e" in
  destruct (chdir_fails env (DIRECTORY env)) as [e|] eqn:C;
  [ rewrite (run_chdir_fails env e C)
  | destruct (bind_fails env "" PORT) as [e|] eqn:B;
    [ rewrite (run_bind_fails env e C B)
    | rewrite (run_serving env C B);
      let l1 := fresh "l1" in
      let l2 := fresh "l2" in
      let l3 := fresh "l3" in
      let l4 := fresh "l4" in
      let l5 := fresh "l5" in
      let N1 := fresh "N1" in
      let N2 := fresh "N2" in
      let N3 := fresh "N3" in
      let N4 := fresh "N4" in
      let N5 := fresh "N5" in
      destruct (banner_log_prints env)
        as (l1 & l2 & l3 & l4 & l5 & -> & N1 & N2 & N3 & N4 & N5);
      destruct (serve_forever_ends env) as [[| | |]| |] ] ];
  cbn [fst snd app exit_of stdout_of removelast In].

(** Membership in an explicit log. *)
Ltac in_log := cbn [In]; repeat (first [left; reflexivity | right]).

Ltac script_facts :=
  repeat match goal with
  | H : _ /\ _ |- _ => destruct H
  | H : _ \/ _ |- _ => destruct H
  | H : False |- _ => destruct H
  | H : Print _ = Print _ |- _ => injection H as H
  | H : ?x = ?y |- _ => discriminate H
  | H : ?x <> ?x |- _ => now destruct H
  | H : _ = farewell, N : _ <> farewell |- _ => now destruct (N H)
  | H : farewell = _, N : _ <> farewell |- _ => now destruct (N (eq_sym H))
  end.

(** X10: the [with] block closes the server on every way out.  The log
    has a [ServerClose] exactly when the socket was bound and the script
    ended (normally or by an exception); it is then the last event and
    the only one of its kind. *)
Theorem server_closed_on_every_exit (env : Env) :
  (In ServerClose (fst (run env))
   <-> In (Bind "" PORT) (fst (run env)) /\ snd (run env) <> Hang)
  /\ (In ServerClose (fst (run env)) ->
      fst (run env) = (removelast (fst (run env)) ++ [ServerClose])%list
      /\ ~ In ServerClose (removelast (fst (run env)))).
Proof.
  script_cases env;
    (split; [split; intros H | intros H]);
    script_facts;
    repeat split; auto;
    try (intros E; discriminate E);
    try (intros K; cbn [In] in K; script_facts);
    in_log.
Qed.

(** X11: the socket is bound exactly when both [os.chdir] and the
    [TCPServer] constructor succeed, and the script prints nothing unless
    the socket was bound (no banner for a failed start). *)
Theorem no_output_unless_bound (env : Env) :
  (In (Bind "" PORT) (fst (run env))
   <-> chdir_fails env (DIRECTORY env) = None /\ bind_fails env "" PORT = None)
  /\ (stdout_of (fst (run env)) = [] <-> ~ In (Bind "" PORT) (fst (run env))).
Proof.
  script_cases env;
    (split; split; intros H);
    script_facts;
    repeat split; auto;
    try (intros K; cbn [In] in K; script_facts);
    try (exfalso; apply H);
    in_log.
Qed.

(** X12: the process stays alive only by blocking in [serve_forever]:
    the script does not end exactly when the directory change and the
    bind succeed and [serve_forever] blocks. *)
Theorem keeps_running_iff_blocked (env : Env) :
  exit_of (snd (run env)) = KeepsRunning
  <-> chdir_fails env (DIRECTORY env) = None
      /\ bind_fails env "" PORT = None
      /\ serve_forever_ends env = ServeBlocks.
Proof.
  unfold run, main, bind, chdir, with_TCPServer.
  destruct (chdir_fails env (DIRECTORY env)) as [e|];
    [split; intros H; script_facts |].
  destruct (bind_fails env "" PORT) as [e|];
    [split; intros H; script_facts |].
  rewrite print_banner_log.
  unfold try_except_KeyboardInterrupt, serve_forever, print, emit.
  destruct (serve_forever_ends env) as [[| | |]| |]; cbn [snd exit_of];
    split; intros H; script_facts; auto.
Qed.

(** X13: the script ends with success exactly when the directory change
    and the bind succeed and [serve_forever] is ended by
    [KeyboardInterrupt] or returns; every other run ends uncaught or does
    not end. *)
Theorem exit_success_iff (env : Env) :
  exit_of (snd (run env)) = ExitSuccess
  <-> chdir_fails env (DIRECTORY env) = None
      /\ bind_fails env "" PORT = None
      /\ (serve_forever_ends env = ServeRaises KeyboardInterrupt
          \/ serve_forever_ends env = ServeReturns).
Proof.
  unfold run, main, bind, chdir, with_TCPServer.
  destruct (chdir_fails env (DIRECTORY env)) as [e|];
    [split; intros H; script_facts |].
  destruct (bind_fails env "" PORT) as [e|];
    [split; intros H; script_facts |].
  rewrite print_banner_log.
  unfold try_except_KeyboardInterrupt, serve_forever, print, emit.
  destruct (serve_forever_ends env) as [[| | |]| |]; cbn [snd exit_of];
    split; intros H; script_facts; auto.
Qed.

(** X14: the farewell is printed exactly when [serve_forever] was ended
    by [KeyboardInterrupt] (a [serve_forever] that returns ends the script
    silently), and never twice: removing the last two events removes it. *)
Theorem farewell_iff_interrupted (env : Env) :
  (In (Print farewell) (fst (run env))
   <-> chdir_fails env (DIRECTORY env) = None
       /\ bind_fails env "" PORT = None
       /\ serve_forever_ends env = ServeRaises KeyboardInterrupt)
  /\ ~ In (Print farewell) (removelast (removelast (fst (run env)))).
Proof.
  script_cases env;
    (split; [split; intros H | intros H]);
    script_facts;
    repeat split; auto;
    in_log.
Qed.

(** X15: whenever [serve_forever] is entered, the log up to it is the
    directory change, the bind of port 8000, and the five banner lines in
    order; the URL lines show the port that was bound and the directory
    line shows the working directory of the process.  [serve_forever] is
    entered once. *)
Theorem banner_precedes_serving (env : Env) :
  In ServeForever (fst (run env)) ->
  exists tail,
    fst (run env) =
      ([ Chdir (DIRECTORY env); Bind "" 8000;
         Print "🚀 Nyash WASM Demo Server";
         Print "📦 Serving at http://localhost:8000";
         Print ("📂 Directory: " ++ DIRECTORY env);
         Print (newline
                ++ "✨ Open http://localhost:8000/index.html in your browser!");
         Print "Press Ctrl-C to stop the server...";
         ServeForever ] ++ tail)%list
    /\ ~ In ServeForever tail
    /\ forall d0, cwd_after d0 (fst (run env)) = DIRECTORY env.
Proof.
  intros H.
  destruct (chdir_fails env (DIRECTORY env)) as [e|] eqn:C.
  { rewrite (run_chdir_fails env e C) in H. destruct H. }
  destruct (bind_fails env "" PORT) as [e|] eqn:B.
  { rewrite (run_bind_fails env e C B) in H. cbn [fst In] in H. script_facts. }
  clear H. rewrite (run_serving env C B).
  destruct (serve_forever_ends env) as [[| | |]| |]; cbn [fst];
    (eexists; split; [reflexivity |]); (split; [| reflexivity]);
    intros K; cbn [In] in K; script_facts.
Qed.

Lemma banner_precedes_serving_witness :
  exists tail,
    fst (run (mkEnv "server.py" (fun p => "/srv/demo/" ++ p)
                (fun _ => None) (fun _ _ => None) ServeBlocks)) =
      ([ Chdir "/srv/demo"; Bind "" 8000;
         Print "🚀 Nyash WASM Demo Server";
         Print "📦 Serving at http://localhost:8000";
         Print "📂 Directory: /srv/demo";
         Print (newline
                ++ "✨ Open http://localhost:8000/index.html in your browser!");
         Print "Press Ctrl-C to stop the server...";
         ServeForever ] ++ tail)%list
    /\ ~ In ServeForever tail
    /\ forall d0,
         cwd_after d0
           (fst (run (mkEnv "server.py" (fun p => "/srv/demo/" ++ p)
                        (fun _ => None) (fun _ _ => None) ServeBlocks)))
         = "/srv/demo".
Proof.
  apply (banner_precedes_serving
           (mkEnv "server.py" (fun p => "/srv/demo/" ++ p)
              (fun _ => None) (fun _ _ => None) ServeBlocks)).
  cbn. in_log.
Defined.
